(** * uberpy: the [Uber] client facade of [uberpy/uber.py]

    The class [Uber(Api)] assembles a dictionary of query parameters for each
    supported endpoint and hands it to a helper inherited from the base class
    [Api] ([get_json] for the HTTP operations, [build_request] for the
    authorisation URL).  The base class lives in [api.py]; here its methods
    are events of a small program monad, answered by a handler that the
    theorems quantify over. *)

From stdpp Require Import base gmap strings list.

Open Scope string_scope.

(** ** Python values *)

(** The values that travel through the client.  Coordinates are usually
    floating point numbers: the client never computes on them, so a double is
    kept as its 64-bit pattern. *)
#[warnings="-register-all"]
Inductive pyobj : Type :=
| PyNone
| PyBool (b : bool)
| PyInt (z : Z)
| PyFloat (bits : Z)
| PyStr (s : string)
| PyList (xs : list pyobj)
| PyDict (kvs : list (string * pyobj)).

(** [x is not None] *)
Definition is_not_None (x : pyobj) : bool :=
  match x with
  | PyNone => false
  | _ => true
  end.

(** Exceptions that can leave a method of the client: [TypeError] from
    [str.join], and whatever the helpers of [Api] raise. *)
Inductive exn : Type :=
| TypeError
| ApiError (payload : pyobj).

(** [sep.join(xs)] on a list whose items are all strings. *)
Fixpoint join_strings (sep : string) (xs : list string) : string :=
  match xs with
  | [] => ""
  | [x] => x
  | x :: rest => x +:+ sep +:+ join_strings sep rest
  end.

(** The items of a list when every one of them is a [str]. *)
Fixpoint as_strings (xs : list pyobj) : option (list string) :=
  match xs with
  | [] => Some []
  | PyStr s :: rest =>
      match as_strings rest with
      | Some ss => Some (s :: ss)
      | None => None
      end
  | _ :: _ => None
  end.

(** [sep.join(xs)]: raises [TypeError] on an item that is not a string. *)
Definition str_join (sep : string) (xs : list pyobj) : exn + string :=
  match as_strings xs with
  | Some ss => inr (join_strings sep ss)
  | None => inl TypeError
  end.

(** ** The instance and the calls into the base class *)

(** An instance of [Uber]: the four attributes that [__init__] assigns, and
    whatever else the base class keeps on the instance. *)
Record Uber : Type := mkUber {
  client_id : pyobj;
  server_token : pyobj;
  secret : pyobj;
  redirect_uri : pyobj;
  api_attrs : gmap string pyobj
}.

Definition set_client_id (v : pyobj) (self : Uber) : Uber :=
  mkUber v (server_token self) (secret self) (redirect_uri self) (api_attrs self).
Definition set_server_token (v : pyobj) (self : Uber) : Uber :=
  mkUber (client_id self) v (secret self) (redirect_uri self) (api_attrs self).
Definition set_secret (v : pyobj) (self : Uber) : Uber :=
  mkUber (client_id self) (server_token self) v (redirect_uri self) (api_attrs self).
Definition set_redirect_uri (v : pyobj) (self : Uber) : Uber :=
  mkUber (client_id self) (server_token self) (secret self) v (api_attrs self).

(** The configuration held by an instance. *)
Definition config_of (self : Uber) : pyobj * pyobj * pyobj * pyobj :=
  (client_id self, server_token self, secret self, redirect_uri self).

(** A call into [Api], with the arguments as the call site passes them:
    [get_json] takes the endpoint, the HTTP method, the dictionary and two
    further positional arguments, which every call site passes as [None];
    the keyword argument [authorisation] is [None] here where the call site
    leaves it out. *)
Inductive ApiCall : Type :=
| ApiInit (a_client_id a_server_token a_secret a_redirect_uri : pyobj)
| GetJson (uri_path http_method : string) (query_parameters : gmap string pyobj)
          (fourth fifth : pyobj) (authorisation : option bool)
| BuildRequest (path : string) (query_parameters : gmap string pyobj)
               (authorisation : option bool).

(** ** Method bodies as programs *)

Inductive Prog (A : Type) : Type :=
| Ret (a : A)
| Raise (e : exn)
| Read (k : Uber -> Prog A)
| Write (f : Uber -> Uber) (k : Prog A)
| Call (c : ApiCall) (k : pyobj -> Prog A).

Arguments Ret {A} a.
Arguments Raise {A} e.
Arguments Read {A} k.
Arguments Write {A} f k.
Arguments Call {A} c k.

Fixpoint bind {A B : Type} (p : Prog A) (f : A -> Prog B) : Prog B :=
  match p with
  | Ret a => f a
  | Raise e => Raise e
  | Read k => Read (fun self => bind (k self) f)
  | Write g k => Write g (bind k f)
  | Call c k => Call c (fun r => bind (k r) f)
  end.

#[global] Instance Prog_ret : MRet Prog := @Ret.
#[global] Instance Prog_bind : MBind Prog := fun A B f p => bind p f.

(** [self.attr] *)
Definition getattr (attr : Uber -> pyobj) : Prog pyobj :=
  Read (fun self => Ret (attr self)).

(** [self.attr = v] *)
Definition setattr (set : pyobj -> Uber -> Uber) (v : pyobj) : Prog unit :=
  Write (set v) (Ret tt).

(** A call of a method of [Api]; its return value is the call's value. *)
Definition call_api (c : ApiCall) : Prog pyobj := Call c Ret.

(** Lifting of a fallible pure computation. *)
Definition lift_result {A : Type} (r : exn + A) : Prog A :=
  match r with
  | inl e => Raise e
  | inr a => Ret a
  end.

(** ** The methods of [Uber] *)

(** [__init__] (lines 11 to 27). *)
Definition Uber_init (a_client_id a_server_token a_secret a_redirect_uri : pyobj)
  : Prog unit :=
  setattr set_client_id a_client_id;;
  setattr set_server_token a_server_token;;
  setattr set_secret a_secret;;
  setattr set_redirect_uri a_redirect_uri;;
  c ← getattr client_id;
  t ← getattr server_token;
  s ← getattr secret;
  r ← getattr redirect_uri;
  call_api (ApiInit c t s r);;
  mret tt.

Definition get_products (latitude longitude : pyobj) : Prog pyobj :=
  let endpoint := "products" in
  let query_parameters : gmap string pyobj :=
    {[ "latitude" := latitude;
       "longitude" := longitude ]} in
  call_api (GetJson endpoint "GET" query_parameters PyNone PyNone None).

Definition get_price_estimate
  (start_latitude start_longitude end_latitude end_longitude : pyobj) : Prog pyobj :=
  let endpoint := "estimates/price" in
  let query_parameters : gmap string pyobj :=
    {[ "start_latitude" := start_latitude;
       "start_longitude" := start_longitude;
       "end_latitude" := end_latitude;
       "end_longitude" := end_longitude ]} in
  call_api (GetJson endpoint "GET" query_parameters PyNone PyNone None).

(** The [if]/[elif]/[elif] chain of [get_time_estimate] (lines 79 to 85): the
    branch whose body runs, selected by the conditions in the order in which
    they are tested; [NoBranch] when every condition is false. *)
Inductive time_branch : Type :=
| CustomerBranch
| ProductBranch
| BothBranch
| NoBranch.

Definition select_time_branch (customer_uuid product_id : pyobj) : time_branch :=
  if is_not_None customer_uuid then CustomerBranch
  else if is_not_None product_id then ProductBranch
  else if is_not_None customer_uuid && is_not_None product_id then BothBranch
  else NoBranch.

(** The body of each branch, as an update of the local dictionary. *)
Definition run_time_branch (b : time_branch) (customer_uuid product_id : pyobj)
  (query_parameters : gmap string pyobj) : gmap string pyobj :=
  match b with
  | CustomerBranch => <["customer_uuid" := customer_uuid]> query_parameters
  | ProductBranch => <["product_id" := product_id]> query_parameters
  | BothBranch =>
      <["product_id" := product_id]>
        (<["customer_uuid" := customer_uuid]> query_parameters)
  | NoBranch => query_parameters
  end.

(** The dictionary that [get_time_estimate] hands to [get_json]. *)
Definition time_estimate_parameters
  (start_latitude start_longitude customer_uuid product_id : pyobj)
  : gmap string pyobj :=
  let query_parameters : gmap string pyobj :=
    {[ "start_latitude" := start_latitude;
       "start_longitude" := start_longitude ]} in
  run_time_branch (select_time_branch customer_uuid product_id)
    customer_uuid product_id query_parameters.

Definition get_time_estimate
  (start_latitude start_longitude customer_uuid product_id : pyobj) : Prog pyobj :=
  let endpoint := "estimates/time" in
  let query_parameters :=
    time_estimate_parameters start_latitude start_longitude customer_uuid product_id in
  call_api (GetJson endpoint "GET" query_parameters PyNone PyNone None).

Definition get_promotions
  (start_latitude start_longitude end_latitude end_longitude : pyobj) : Prog pyobj :=
  let endpoint := "promotions" in
  let query_parameters : gmap string pyobj :=
    {[ "start_latitude" := start_latitude;
       "start_longitude" := start_longitude;
       "end_latitude" := end_latitude;
       "end_longitude" := end_longitude ]} in
  call_api (GetJson endpoint "GET" query_parameters PyNone PyNone None).

(** Defaults of the keyword arguments. *)
Definition default_customer_uuid : pyobj := PyNone.
Definition default_product_id : pyobj := PyNone.
Definition default_scopes : list pyobj := [].
Definition default_state : pyobj := PyNone.
Definition default_response_type : pyobj := PyStr "code".

Definition get_authorize_url (scopes : list pyobj) (state response_type : pyobj)
  : Prog pyobj :=
  let path := "authorize" in
  a_client_id ← getattr client_id;
  joined ← lift_result (str_join "," scopes);
  let query_parameters : gmap string pyobj :=
    {[ "client_id" := a_client_id;
       "response_type" := response_type;
       "scopes" := PyStr joined ]} in
  call_api (BuildRequest path query_parameters (Some true)).

Definition get_access_token (code : pyobj) : Prog pyobj :=
  let endpoint := "token" in
  a_client_id ← getattr client_id;
  a_secret ← getattr secret;
  a_redirect_uri ← getattr redirect_uri;
  let query_parameters : gmap string pyobj :=
    {[ "client_id" := a_client_id;
       "client_secret" := a_secret;
       "grant_type" := PyStr "authorization_code";
       "redirect_uri" := a_redirect_uri;
       "code" := code ]} in
  call_api (GetJson endpoint "POST" query_parameters PyNone PyNone (Some true)).

Definition refresh_token (a_refresh_token : pyobj) : Prog pyobj :=
  let endpoint := "token" in
  a_client_id ← getattr client_id;
  a_secret ← getattr secret;
  a_redirect_uri ← getattr redirect_uri;
  let query_parameters : gmap string pyobj :=
    {[ "client_id" := a_client_id;
       "client_secret" := a_secret;
       "grant_type" := PyStr "authorization_code";
       "redirect_uri" := a_redirect_uri;
       "refresh_token" := a_refresh_token ]} in
  call_api (GetJson endpoint "POST" query_parameters PyNone PyNone (Some true)).

Definition revoke_token (token : pyobj) : Prog pyobj :=
  let endpoint := "revoke" in
  a_client_id ← getattr client_id;
  a_secret ← getattr secret;
  let query_parameters : gmap string pyobj :=
    {[ "client_id" := a_client_id;
       "client_secret" := a_secret;
       "token" := token ]} in
  call_api (GetJson endpoint "POST" query_parameters PyNone PyNone (Some true)).

(** The public operations of the client, and the method each one runs. *)
Inductive operation : Type :=
| OpGetProducts (latitude longitude : pyobj)
| OpGetPriceEstimate (start_latitude start_longitude end_latitude end_longitude : pyobj)
| OpGetTimeEstimate (start_latitude start_longitude customer_uuid product_id : pyobj)
| OpGetPromotions (start_latitude start_longitude end_latitude end_longitude : pyobj)
| OpGetAuthorizeUrl (scopes : list pyobj) (state response_type : pyobj)
| OpGetAccessToken (code : pyobj)
| OpRefreshToken (a_refresh_token : pyobj)
| OpRevokeToken (token : pyobj).

Definition perform (op : operation) : Prog pyobj :=
  match op with
  | OpGetProducts la lo => get_products la lo
  | OpGetPriceEstimate a b c d => get_price_estimate a b c d
  | OpGetTimeEstimate a b cu p => get_time_estimate a b cu p
  | OpGetPromotions a b c d => get_promotions a b c d
  | OpGetAuthorizeUrl sc st rt => get_authorize_url sc st rt
  | OpGetAccessToken code => get_access_token code
  | OpRefreshToken t => refresh_token t
  | OpRevokeToken t => revoke_token t
  end.

(** ** Running a program against the base class *)

Section Run.
(** Everything outside the instance: the network and the remote service. *)
Context {world : Type}.

(** What a method of [Api] does when called on an instance: it returns a
    value or raises, and may change the instance and the world. *)
Definition handler : Type :=
  ApiCall -> Uber -> world -> (exn + pyobj) * Uber * world.

Record run (A : Type) : Type := mkRun {
  outcome : exn + A;
  self_after : Uber;
  world_after : world;
  calls : list ApiCall
}.
Arguments mkRun {A}.
Arguments outcome {A}.
Arguments self_after {A}.
Arguments world_after {A}.
Arguments calls {A}.

Definition logged {A : Type} (c : ApiCall) (r : run A) : run A :=
  mkRun (outcome r) (self_after r) (world_after r) (c :: calls r).

Fixpoint exec {A : Type} (h : handler) (p : Prog A) (self : Uber) (w : world)
  : run A :=
  match p with
  | Ret a => mkRun (inr a) self w []
  | Raise e => mkRun (inl e) self w []
  | Read k => exec h (k self) self w
  | Write f k => exec h k (f self) w
  | Call c k =>
      match h c self w with
      | (inl e, self', w') => mkRun (inl e) self' w' [c]
      | (inr v, self', w') => logged c (exec h (k v) self' w')
      end
  end.
End Run.

Arguments mkRun {world A}.
Arguments outcome {world A}.
Arguments self_after {world A}.
Arguments world_after {world A}.
Arguments calls {world A}.

(** The run of a single call into [Api] whose value is returned as it is. *)
Definition answered {world : Type} (h : @handler world) (c : ApiCall)
  (self : Uber) (w : world) : run pyobj :=
  let '(r, self', w') := h c self w in mkRun r self' w' [c].

(** The dictionary that a call carries. *)
Definition parameters_of (c : ApiCall) : gmap string pyobj :=
  match c with
  | ApiInit _ _ _ _ => ∅
  | GetJson _ _ query_parameters _ _ _ => query_parameters
  | BuildRequest _ query_parameters _ => query_parameters
  end.

(** The calls that reach the JSON-fetching path of [Api]. *)
Definition is_get_json (c : ApiCall) : bool :=
  match c with
  | GetJson _ _ _ _ _ _ => true
  | _ => false
  end.

Definition is_authorize (op : operation) : bool :=
  match op with
  | OpGetAuthorizeUrl _ _ _ => true
  | _ => false
  end.

(** A handler that leaves the four configuration attributes as they are. *)
Definition preserves_config {world : Type} (h : @handler world) : Prop :=
  forall c self w, config_of (h c self w).1.2 = config_of self.

(** Programs that never assign to an attribute of the instance. *)
Inductive read_only {A : Type} : Prog A -> Prop :=
| ro_Ret a : read_only (Ret a)
| ro_Raise e : read_only (Raise e)
| ro_Read k : (forall self, read_only (k self)) -> read_only (Read k)
| ro_Call c k : (forall v, read_only (k v)) -> read_only (Call c k).

(** The first call that a program issues on an instance, if it issues one. *)
Fixpoint first_call {A : Type} (p : Prog A) (self : Uber) : option ApiCall :=
  match p with
  | Ret _ => None
  | Raise _ => None
  | Read k => first_call (k self) self
  | Write f k => first_call k (f self)
  | Call c _ => Some c
  end.

(** A handler whose answer depends on the call alone and that touches
    neither the instance nor the world. *)
Definition stateless {world : Type} (reply : ApiCall -> exn + pyobj)
  : @handler world :=
  fun c self w => (reply c, self, w).

(** A base class that answers every call with an empty JSON object, notes on
    the instance that a call was made, and counts the calls in the world. *)
Definition counting_handler : @handler nat :=
  fun c self w =>
    (inr (PyDict []),
     mkUber (client_id self) (server_token self) (secret self) (redirect_uri self)
       (<["called" := PyBool true]> (api_attrs self)),
     S w).

(** An instance as the constructor leaves it. *)
Definition sample_client : Uber :=
  mkUber (PyStr "my-client") (PyStr "my-token") (PyStr "my-secret")
    (PyStr "https://example.org/callback") ∅.

(** The operations of the OAuth flow: the authorisation URL and the three
    token operations. *)
Definition is_oauth (op : operation) : bool :=
  match op with
  | OpGetAuthorizeUrl _ _ _ | OpGetAccessToken _
  | OpRefreshToken _ | OpRevokeToken _ => true
  | _ => false
  end.

(** The operations that talk to the token endpoints. *)
Definition is_token_op (op : operation) : bool :=
  match op with
  | OpGetAccessToken _ | OpRefreshToken _ | OpRevokeToken _ => true
  | _ => false
  end.

(** The keyword argument [authorisation] of a call. *)
Definition authorisation_of (c : ApiCall) : option bool :=
  match c with
  | ApiInit _ _ _ _ => None
  | GetJson _ _ _ _ _ authorisation => authorisation
  | BuildRequest _ _ authorisation => authorisation
  end.

(** The HTTP method of a call, for the calls that name one. *)
Definition method_of (c : ApiCall) : option string :=
  match c with
  | GetJson _ http_method _ _ _ _ => Some http_method
  | _ => None
  end.




(** ** Equations of the interpreter *)

Section ExecFacts.
Context {world : Type} (h : @handler world).

Lemma exec_Read {A} (k : Uber -> Prog A) self w :
  exec h (Read k) self w = exec h (k self) self w.
Proof. reflexivity. Qed.

Lemma exec_Write {A} f (k : Prog A) self w :
  exec h (Write f k) self w = exec h k (f self) w.
Proof. reflexivity. Qed.

Lemma exec_Raise {A} (e : exn) self w :
  exec h (@Raise A e) self w = mkRun (inl e) self w [].
Proof. reflexivity. Qed.

Lemma exec_call_api c self w :
  exec h (call_api c) self w = answered h c self w.
Proof.
  unfold call_api, answered. cbn [exec].
  destruct (h c self w) as [[[e | v] self'] w']; reflexivity.
Qed.

Lemma calls_answered c self w : calls (answered h c self w) = [c].
Proof. unfold answered. destruct (h c self w) as [[r self'] w']. reflexivity. Qed.

Lemma calls_call_api c self w : calls (exec h (call_api c) self w) = [c].
Proof. rewrite exec_call_api. apply calls_answered. Qed.

(** A program that does not assign leaves the configuration to the handler. *)
Lemma read_only_config {A} (p : Prog A) :
  read_only p -> preserves_config h ->
  forall self w, config_of (self_after (exec h p self w)) = config_of self.
Proof.
  intros Hro Hh. induction Hro as [a | e | k _ IH | c k _ IH]; intros self w.
  - reflexivity.
  - reflexivity.
  - rewrite exec_Read. apply IH.
  - cbn [exec]. pose proof (Hh c self w) as Hc.
    destruct (h c self w) as [[[e | v] self'] w']; cbn in Hc |- *.
    + exact Hc.
    + rewrite IH. exact Hc.
Qed.
End ExecFacts.

(** ** The run of each method *)

(** Resolves the attribute reads of a method body and runs its call. *)
Ltac run_method :=
  cbn [exec bind mbind Prog_bind getattr]; apply exec_call_api.

Section Runs.
Context {world : Type} (h : @handler world) (self : Uber) (w : world).

Lemma exec_get_products latitude longitude :
  exec h (get_products latitude longitude) self w =
  answered h (GetJson "products" "GET"
    {[ "latitude" := latitude; "longitude" := longitude ]}
    PyNone PyNone None) self w.
Proof. unfold get_products. run_method. Qed.

Lemma exec_get_price_estimate a b c d :
  exec h (get_price_estimate a b c d) self w =
  answered h (GetJson "estimates/price" "GET"
    {[ "start_latitude" := a; "start_longitude" := b;
       "end_latitude" := c; "end_longitude" := d ]}
    PyNone PyNone None) self w.
Proof. unfold get_price_estimate. run_method. Qed.

Lemma exec_get_time_estimate a b customer_uuid product_id :
  exec h (get_time_estimate a b customer_uuid product_id) self w =
  answered h (GetJson "estimates/time" "GET"
    (time_estimate_parameters a b customer_uuid product_id)
    PyNone PyNone None) self w.
Proof. unfold get_time_estimate. run_method. Qed.

Lemma exec_get_promotions a b c d :
  exec h (get_promotions a b c d) self w =
  answered h (GetJson "promotions" "GET"
    {[ "start_latitude" := a; "start_longitude" := b;
       "end_latitude" := c; "end_longitude" := d ]}
    PyNone PyNone None) self w.
Proof. unfold get_promotions. run_method. Qed.

Lemma exec_get_authorize_url scopes state response_type :
  exec h (get_authorize_url scopes state response_type) self w =
  match str_join "," scopes with
  | inl e => mkRun (inl e) self w []
  | inr joined =>
      answered h (BuildRequest "authorize"
        {[ "client_id" := client_id self;
           "response_type" := response_type;
           "scopes" := PyStr joined ]} (Some true)) self w
  end.
Proof.
  unfold get_authorize_url.
  cbn [exec bind mbind Prog_bind getattr].
  destruct (str_join "," scopes) as [e | joined]; cbn [lift_result bind].
  - reflexivity.
  - apply exec_call_api.
Qed.

Lemma exec_get_access_token code :
  exec h (get_access_token code) self w =
  answered h (GetJson "token" "POST"
    {[ "client_id" := client_id self;
       "client_secret" := secret self;
       "grant_type" := PyStr "authorization_code";
       "redirect_uri" := redirect_uri self;
       "code" := code ]}
    PyNone PyNone (Some true)) self w.
Proof. unfold get_access_token. run_method. Qed.

Lemma exec_refresh_token token :
  exec h (refresh_token token) self w =
  answered h (GetJson "token" "POST"
    {[ "client_id" := client_id self;
       "client_secret" := secret self;
       "grant_type" := PyStr "authorization_code";
       "redirect_uri" := redirect_uri self;
       "refresh_token" := token ]}
    PyNone PyNone (Some true)) self w.
Proof. unfold refresh_token. run_method. Qed.

Lemma exec_revoke_token token :
  exec h (revoke_token token) self w =
  answered h (GetJson "revoke" "POST"
    {[ "client_id" := client_id self;
       "client_secret" := secret self;
       "token" := token ]}
    PyNone PyNone (Some true)) self w.
Proof. unfold revoke_token. run_method. Qed.
End Runs.

(** ** Facts about the pieces *)

Lemma is_not_None_true (x : pyobj) : x <> PyNone -> is_not_None x = true.
Proof. destruct x; [congruence | reflexivity ..]. Qed.

Lemma str_join_nil sep : str_join sep [] = inr "".
Proof. reflexivity. Qed.

(** [state] does not occur in the body of [get_authorize_url]. *)
Lemma get_authorize_url_ignores_state scopes state1 state2 response_type :
  get_authorize_url scopes state1 response_type =
  get_authorize_url scopes state2 response_type.
Proof. reflexivity. Qed.

(** The keys of the dictionary built by [get_authorize_url]. *)
Lemma authorize_parameters_dom (a_client_id response_type joined : pyobj) :
  dom ({[ "client_id" := a_client_id;
          "response_type" := response_type;
          "scopes" := joined ]} : gmap string pyobj)
  = {[ "client_id"; "response_type"; "scopes" ]}.
Proof. set_solver. Qed.

(** With a customer only, the dictionary gains [customer_uuid] alone. *)
Lemma time_estimate_customer_only a b customer_uuid :
  customer_uuid <> PyNone ->
  time_estimate_parameters a b customer_uuid PyNone =
  <["customer_uuid" := customer_uuid]>
    {[ "start_latitude" := a; "start_longitude" := b ]}.
Proof.
  intros Hc. unfold time_estimate_parameters, select_time_branch.
  rewrite (is_not_None_true _ Hc). reflexivity.
Qed.

(** With a product only, the dictionary gains [product_id] alone. *)
Lemma time_estimate_product_only a b product_id :
  product_id <> PyNone ->
  time_estimate_parameters a b PyNone product_id =
  <["product_id" := product_id]>
    {[ "start_latitude" := a; "start_longitude" := b ]}.
Proof.
  intros Hp. unfold time_estimate_parameters, select_time_branch.
  cbn [is_not_None]. rewrite (is_not_None_true _ Hp). reflexivity.
Qed.

(** With neither, the dictionary holds the two coordinates. *)
Lemma time_estimate_neither a b :
  time_estimate_parameters a b PyNone PyNone =
  {[ "start_latitude" := a; "start_longitude" := b ]}.
Proof. reflexivity. Qed.

(** With a customer, whatever the product, the first branch runs. *)
Lemma time_estimate_customer_first a b customer_uuid product_id :
  customer_uuid <> PyNone ->
  time_estimate_parameters a b customer_uuid product_id =
  <["customer_uuid" := customer_uuid]>
    {[ "start_latitude" := a; "start_longitude" := b ]}.
Proof.
  intros Hc. unfold time_estimate_parameters, select_time_branch.
  rewrite (is_not_None_true _ Hc). reflexivity.
Qed.

(** Every method body of the client is free of attribute assignments. *)
Lemma perform_read_only op : read_only (perform op).
Proof.
  destruct op; cbn [perform];
    [ unfold get_products | unfold get_price_estimate
    | unfold get_time_estimate | unfold get_promotions
    | unfold get_authorize_url | unfold get_access_token
    | unfold refresh_token | unfold revoke_token ];
    cbn [bind mbind Prog_bind getattr call_api];
    repeat (first [ apply ro_Read; intros ? | apply ro_Call; intros ?
                  | apply ro_Ret | apply ro_Raise ]);
    cbn [bind mbind Prog_bind getattr call_api].
  destruct (str_join "," scopes) as [e | joined]; cbn [lift_result bind call_api].
  - apply ro_Raise.
  - apply ro_Call; intros ?. apply ro_Ret.
Qed.

(** ** Operations that fetch JSON *)

(** C6: for all latitude and longitude arguments, [get_products] issues
    exactly one call, a GET to endpoint "products" whose query parameters are
    exactly the keys latitude and longitude bound to the two arguments, with
    the authorisation keyword left out; the value of the call is returned. *)
Theorem get_products_single_get {world : Type} (h : @handler world)
  (self : Uber) (w : world) (latitude longitude : pyobj) :
  let query_parameters : gmap string pyobj :=
    {[ "latitude" := latitude; "longitude" := longitude ]} in
  let request := GetJson "products" "GET" query_parameters PyNone PyNone None in
  calls (exec h (get_products latitude longitude) self w) = [request]
  /\ exec h (get_products latitude longitude) self w = answered h request self w
  /\ dom query_parameters = {[ "latitude"; "longitude" ]}
  /\ query_parameters !! "latitude" = Some latitude
  /\ query_parameters !! "longitude" = Some longitude.
Proof.
  intros query_parameters request. subst request query_parameters.
  rewrite exec_get_products, calls_answered.
  repeat split.
Qed.

(** C4: for every code, [get_access_token] issues exactly one call, a POST
    to endpoint "token" whose query parameters are exactly client_id,
    client_secret, grant_type, redirect_uri and code, the first, second and
    fourth read from the instance, grant_type the constant
    "authorization_code", with the authorisation keyword set. *)
Theorem get_access_token_single_post {world : Type} (h : @handler world)
  (self : Uber) (w : world) (code : pyobj) :
  let query_parameters : gmap string pyobj :=
    {[ "client_id" := client_id self;
       "client_secret" := secret self;
       "grant_type" := PyStr "authorization_code";
       "redirect_uri" := redirect_uri self;
       "code" := code ]} in
  let request := GetJson "token" "POST" query_parameters PyNone PyNone (Some true) in
  calls (exec h (get_access_token code) self w) = [request]
  /\ exec h (get_access_token code) self w = answered h request self w
  /\ dom query_parameters =
     {[ "client_id"; "client_secret"; "grant_type"; "redirect_uri"; "code" ]}
  /\ query_parameters !! "client_id" = Some (client_id self)
  /\ query_parameters !! "client_secret" = Some (secret self)
  /\ query_parameters !! "grant_type" = Some (PyStr "authorization_code")
  /\ query_parameters !! "redirect_uri" = Some (redirect_uri self)
  /\ query_parameters !! "code" = Some code.
Proof.
  intros query_parameters request. subst request query_parameters.
  rewrite exec_get_access_token, calls_answered.
  repeat split.
Qed.

(** C3: for every refresh token, [refresh_token] issues a POST to endpoint
    "token" whose query parameters are exactly client_id, client_secret,
    grant_type, redirect_uri and refresh_token, with the authorisation
    keyword set; grant_type is the constant "authorization_code", the value
    that [get_access_token] sends under the same key. *)
Theorem refresh_token_sends_authorization_code {world : Type}
  (h : @handler world) (self : Uber) (w : world) (token : pyobj) :
  let query_parameters : gmap string pyobj :=
    {[ "client_id" := client_id self;
       "client_secret" := secret self;
       "grant_type" := PyStr "authorization_code";
       "redirect_uri" := redirect_uri self;
       "refresh_token" := token ]} in
  let request := GetJson "token" "POST" query_parameters PyNone PyNone (Some true) in
  calls (exec h (refresh_token token) self w) = [request]
  /\ exec h (refresh_token token) self w = answered h request self w
  /\ dom query_parameters =
     {[ "client_id"; "client_secret"; "grant_type"; "redirect_uri"; "refresh_token" ]}
  /\ query_parameters !! "client_id" = Some (client_id self)
  /\ query_parameters !! "client_secret" = Some (secret self)
  /\ query_parameters !! "redirect_uri" = Some (redirect_uri self)
  /\ query_parameters !! "refresh_token" = Some token
  /\ query_parameters !! "grant_type" = Some (PyStr "authorization_code")
  /\ forall code,
       parameters_of <$> calls (exec h (get_access_token code) self w)
       = [ {[ "client_id" := client_id self;
              "client_secret" := secret self;
              "grant_type" := PyStr "authorization_code";
              "redirect_uri" := redirect_uri self;
              "code" := code ]} ]
       /\ (forall c, c ∈ calls (exec h (get_access_token code) self w) ->
             parameters_of c !! "grant_type" = query_parameters !! "grant_type").
Proof.
  intros query_parameters request. subst request query_parameters.
  rewrite exec_refresh_token, calls_answered.
  repeat split.
  - rewrite exec_get_access_token, calls_answered. reflexivity.
  - rewrite exec_get_access_token, calls_answered.
    intros c Hc. apply list_elem_of_singleton in Hc. subst c. reflexivity.
Qed.

(** ** The time estimate and its optional arguments *)

(** C2: the third branch of the chain in [get_time_estimate] is selected for
    no input; when customer_uuid and product_id are both given, the first
    branch runs, so the query parameters sent to "estimates/time" hold
    customer_uuid and no product_id. *)
Theorem both_branch_unreachable :
  (forall customer_uuid product_id,
     select_time_branch customer_uuid product_id <> BothBranch)
  /\ (forall {world : Type} (h : @handler world) self w
        start_latitude start_longitude customer_uuid product_id,
        customer_uuid <> PyNone -> product_id <> PyNone ->
        let query_parameters :=
          time_estimate_parameters start_latitude start_longitude
            customer_uuid product_id in
        select_time_branch customer_uuid product_id = CustomerBranch
        /\ calls (exec h (get_time_estimate start_latitude start_longitude
                            customer_uuid product_id) self w)
           = [GetJson "estimates/time" "GET" query_parameters PyNone PyNone None]
        /\ query_parameters !! "customer_uuid" = Some customer_uuid
        /\ query_parameters !! "product_id" = None
        /\ dom query_parameters =
           {[ "start_latitude"; "start_longitude"; "customer_uuid" ]}).
Proof.
  split.
  - intros customer_uuid product_id. unfold select_time_branch.
    destruct (is_not_None customer_uuid); [discriminate |].
    destruct (is_not_None product_id); discriminate.
  - intros world h self w a b customer_uuid product_id Hc Hp query_parameters.
    subst query_parameters.
    rewrite exec_get_time_estimate, calls_answered.
    rewrite (time_estimate_customer_first a b _ product_id Hc).
    unfold select_time_branch. rewrite (is_not_None_true _ Hc).
    repeat split.
Qed.

Lemma both_branch_unreachable_witness :
  PyStr "customer-1" <> PyNone /\ PyStr "product-1" <> PyNone
  /\ select_time_branch (PyStr "customer-1") (PyStr "product-1") = CustomerBranch
  /\ time_estimate_parameters (PyInt 37) (PyInt (-122))
       (PyStr "customer-1") (PyStr "product-1") !! "product_id" = None.
Proof.
  assert (Hc : PyStr "customer-1" <> PyNone) by discriminate.
  assert (Hp : PyStr "product-1" <> PyNone) by discriminate.
  pose proof (proj2 both_branch_unreachable unit
                (fun _ self w => (inr PyNone, self, w))
                (mkUber PyNone PyNone PyNone PyNone ∅) tt
                (PyInt 37) (PyInt (-122)) _ _ Hc Hp) as H.
  cbv zeta in H.
  destruct H as (Hb & _ & _ & Hnone & _).
  exact (conj Hc (conj Hp (conj Hb Hnone))).
Defined.

(** C1: evaluation of [get_time_estimate] with both optional arguments
    given.  The single GET to "estimates/time" carries customer_uuid, and
    product_id is absent from its query parameters. *)
Theorem get_time_estimate_both_drops_product_id {world : Type}
  (h : @handler world) (self : Uber) (w : world) :
  let query_parameters :=
    time_estimate_parameters (PyInt 37) (PyInt (-122))
      (PyStr "customer-1") (PyStr "product-1") in
  calls (exec h (get_time_estimate (PyInt 37) (PyInt (-122))
                   (PyStr "customer-1") (PyStr "product-1")) self w)
  = [GetJson "estimates/time" "GET" query_parameters PyNone PyNone None]
  /\ query_parameters !! "customer_uuid" = Some (PyStr "customer-1")
  /\ query_parameters !! "product_id" = None
  /\ dom query_parameters = {[ "start_latitude"; "start_longitude"; "customer_uuid" ]}.
Proof.
  intros query_parameters. subst query_parameters.
  rewrite exec_get_time_estimate, calls_answered.
  repeat split.
Qed.

(** ** The authorisation URL *)

(** C9: with scopes left at its default, the empty list, and response_type
    at its default, the dictionary handed to [build_request] holds the key
    scopes bound to the empty string, next to client_id and
    response_type = "code", and no other key. *)
Theorem get_authorize_url_default_scopes {world : Type} (h : @handler world)
  (self : Uber) (w : world) (state : pyobj) :
  exists query_parameters : gmap string pyobj,
    calls (exec h (get_authorize_url default_scopes state default_response_type)
             self w)
    = [BuildRequest "authorize" query_parameters (Some true)]
    /\ query_parameters !! "scopes" = Some (PyStr "")
    /\ query_parameters !! "client_id" = Some (client_id self)
    /\ query_parameters !! "response_type" = Some (PyStr "code")
    /\ dom query_parameters = {[ "client_id"; "response_type"; "scopes" ]}.
Proof.
  rewrite exec_get_authorize_url. unfold default_scopes.
  rewrite str_join_nil, calls_answered.
  eexists. split; [reflexivity |].
  repeat split.
Qed.

(** C10: the run of [get_authorize_url] does not depend on the state
    argument: two calls that differ in state only issue the same calls and
    end with the same outcome, and no call carries a key state. *)
Theorem get_authorize_url_state_independent {world : Type} (h : @handler world)
  (self : Uber) (w : world) (scopes : list pyobj)
  (state1 state2 response_type : pyobj) :
  exec h (get_authorize_url scopes state1 response_type) self w
  = exec h (get_authorize_url scopes state2 response_type) self w
  /\ forall c,
       c ∈ calls (exec h (get_authorize_url scopes state1 response_type) self w) ->
       parameters_of c !! "state" = None.
Proof.
  split.
  - rewrite (get_authorize_url_ignores_state scopes state1 state2). reflexivity.
  - intros c. rewrite exec_get_authorize_url.
    destruct (str_join "," scopes) as [e | joined].
    + cbn [calls]. intros Hc. inversion Hc.
    + rewrite calls_answered. intros Hc.
      apply list_elem_of_singleton in Hc. subst c. reflexivity.
Qed.

(** C5: evaluation of [get_authorize_url] with a state given.  The
    dictionary handed to [build_request] holds client_id, response_type and
    the comma-joined scopes, and no key state: the run is the run of the call
    that leaves state out. *)
Theorem get_authorize_url_drops_state {world : Type} (h : @handler world)
  (self : Uber) (w : world) :
  let scopes := [PyStr "profile"; PyStr "history"] in
  let query_parameters : gmap string pyobj :=
    {[ "client_id" := client_id self;
       "response_type" := PyStr "code";
       "scopes" := PyStr "profile,history" ]} in
  exec h (get_authorize_url scopes (PyStr "xyz") default_response_type) self w
  = answered h (BuildRequest "authorize" query_parameters (Some true)) self w
  /\ query_parameters !! "state" = None
  /\ dom query_parameters = {[ "client_id"; "response_type"; "scopes" ]}
  /\ exec h (get_authorize_url scopes (PyStr "xyz") default_response_type) self w
     = exec h (get_authorize_url scopes default_state default_response_type) self w.
Proof.
  intros scopes query_parameters. subst scopes query_parameters.
  rewrite (get_authorize_url_ignores_state _ (PyStr "xyz") default_state).
  rewrite exec_get_authorize_url.
  repeat split.
Qed.

(** C8: [get_authorize_url] never reaches the JSON-fetching path: it either
    stops in [str.join] before any call, or issues the single call to
    [build_request] and returns its value; every other operation issues
    exactly one call, to [get_json]. *)
Theorem get_authorize_url_no_http {world : Type} (h : @handler world)
  (self : Uber) (w : world) :
  (forall scopes state response_type,
     let r := exec h (get_authorize_url scopes state response_type) self w in
     Forall (fun c => is_get_json c = false) (calls r)
     /\ ((calls r = [] /\ outcome r = inl TypeError)
         \/ exists query_parameters,
              r = answered h (BuildRequest "authorize" query_parameters (Some true))
                    self w))
  /\ (forall op,
        is_authorize op = false ->
        exists uri_path http_method query_parameters authorisation,
          exec h (perform op) self w
          = answered h (GetJson uri_path http_method query_parameters
                          PyNone PyNone authorisation) self w).
Proof.
  split.
  - intros scopes state response_type r. subst r.
    rewrite exec_get_authorize_url. unfold str_join.
    destruct (as_strings scopes) as [ss |].
    + rewrite calls_answered. split.
      * repeat constructor.
      * right. eexists. reflexivity.
    + cbn [calls outcome]. split; [constructor | left; split; reflexivity].
  - intros op Hop. destruct op; cbn [perform]; try discriminate Hop.
    + rewrite exec_get_products. by do 4 eexists.
    + rewrite exec_get_price_estimate. by do 4 eexists.
    + rewrite exec_get_time_estimate. by do 4 eexists.
    + rewrite exec_get_promotions. by do 4 eexists.
    + rewrite exec_get_access_token. by do 4 eexists.
    + rewrite exec_refresh_token. by do 4 eexists.
    + rewrite exec_revoke_token. by do 4 eexists.
Qed.

Lemma get_authorize_url_no_http_witness :
  is_authorize (OpRevokeToken (PyStr "t")) = false
  /\ exists uri_path http_method query_parameters authorisation,
       exec (world := unit) (fun _ self w => (inr PyNone, self, w))
         (perform (OpRevokeToken (PyStr "t")))
         (mkUber (PyStr "id") (PyStr "tok") (PyStr "sec") (PyStr "uri") ∅) tt
       = answered (fun _ self w => (inr PyNone, self, w))
           (GetJson uri_path http_method query_parameters PyNone PyNone authorisation)
           (mkUber (PyStr "id") (PyStr "tok") (PyStr "sec") (PyStr "uri") ∅) tt.
Proof.
  split; [reflexivity |].
  apply (proj2 (get_authorize_url_no_http (world := unit)
                  (fun _ self w => (inr PyNone, self, w))
                  (mkUber (PyStr "id") (PyStr "tok") (PyStr "sec") (PyStr "uri") ∅) tt)
           (OpRevokeToken (PyStr "t"))).
  reflexivity.
Defined.

(** ** The configuration *)

(** Every operation is its first call, answered by the base class, or stops
    in [str.join] before it calls. *)
Lemma perform_by_first_call {world : Type} (h : @handler world) op self w :
  exec h (perform op) self w =
  match first_call (perform op) self with
  | Some c => answered h c self w
  | None => mkRun (inl TypeError) self w []
  end.
Proof.
  destruct op; cbn [perform].
  - apply exec_get_products.
  - apply exec_get_price_estimate.
  - apply exec_get_time_estimate.
  - apply exec_get_promotions.
  - rewrite exec_get_authorize_url. unfold get_authorize_url, str_join.
    cbn [first_call bind mbind Prog_bind getattr].
    destruct (as_strings scopes) as [ss |]; reflexivity.
  - apply exec_get_access_token.
  - apply exec_refresh_token.
  - apply exec_revoke_token.
Qed.

(** The first call of an operation is a function of the configuration. *)
Lemma first_call_config op self self' :
  config_of self' = config_of self ->
  first_call (perform op) self' = first_call (perform op) self.
Proof.
  destruct self as [c1 t1 s1 r1 o1], self' as [c2 t2 s2 r2 o2].
  unfold config_of. cbn [client_id server_token secret redirect_uri].
  intros [= -> -> -> ->].
  destruct op; cbn [perform]; try reflexivity.
  unfold get_authorize_url, str_join.
  cbn [first_call bind mbind Prog_bind getattr].
  destruct (as_strings scopes) as [ss |]; reflexivity.
Qed.

(** The constructor assigns the four attributes, then calls the
    constructor of the base class with them. *)
Lemma exec_Uber_init {world : Type} (h : @handler world) self w a b c d :
  exec h (Uber_init a b c d) self w =
  let self0 := mkUber a b c d (api_attrs self) in
  match h (ApiInit a b c d) self0 w with
  | (inl e, self', w') => mkRun (inl e) self' w' [ApiInit a b c d]
  | (inr _, self', w') => mkRun (inr tt) self' w' [ApiInit a b c d]
  end.
Proof.
  unfold Uber_init.
  cbn [exec bind mbind Prog_bind getattr setattr call_api].
  unfold set_redirect_uri, set_secret, set_server_token, set_client_id.
  cbn [client_id server_token secret redirect_uri api_attrs].
  destruct (h (ApiInit a b c d) (mkUber a b c d (api_attrs self)) w)
    as [[[e | v] self'] w']; reflexivity.
Qed.





(** ** Runs on concrete inputs *)

Example get_access_token_abc123 :
  exec counting_handler (get_access_token (PyStr "abc123")) sample_client 0
  = mkRun (inr (PyDict []))
      (mkUber (PyStr "my-client") (PyStr "my-token") (PyStr "my-secret")
         (PyStr "https://example.org/callback") {[ "called" := PyBool true ]})
      1
      [GetJson "token" "POST"
         {[ "client_id" := PyStr "my-client";
            "client_secret" := PyStr "my-secret";
            "grant_type" := PyStr "authorization_code";
            "redirect_uri" := PyStr "https://example.org/callback";
            "code" := PyStr "abc123" ]}
         PyNone PyNone (Some true)].
Proof. vm_compute. reflexivity. Qed.

Example get_authorize_url_profile_history :
  calls (exec counting_handler
           (get_authorize_url [PyStr "profile"; PyStr "history"]
              default_state default_response_type) sample_client 0)
  = [BuildRequest "authorize"
       {[ "client_id" := PyStr "my-client";
          "response_type" := PyStr "code";
          "scopes" := PyStr "profile,history" ]} (Some true)].
Proof. vm_compute. reflexivity. Qed.

Example get_authorize_url_bad_scope :
  exec counting_handler
    (get_authorize_url [PyStr "profile"; PyInt 7] default_state default_response_type)
    sample_client 0
  = mkRun (inl TypeError) sample_client 0 [].
Proof. reflexivity. Qed.

Example get_time_estimate_product_only :
  map_to_list (time_estimate_parameters (PyInt 37) (PyInt (-122))
                 default_customer_uuid (PyStr "product-1"))
  ≡ₚ [("start_latitude", PyInt 37); ("start_longitude", PyInt (-122));
      ("product_id", PyStr "product-1")].
Proof. vm_compute. solve_Permutation. Qed.

Example Uber_init_sample :
  exec counting_handler
    (Uber_init (PyStr "my-client") (PyStr "my-token") (PyStr "my-secret")
       (PyStr "https://example.org/callback"))
    (mkUber PyNone PyNone PyNone PyNone ∅) 0
  = mkRun (inr tt)
      (mkUber (PyStr "my-client") (PyStr "my-token") (PyStr "my-secret")
         (PyStr "https://example.org/callback") {[ "called" := PyBool true ]})
      1
      [ApiInit (PyStr "my-client") (PyStr "my-token") (PyStr "my-secret")
         (PyStr "https://example.org/callback")].
Proof. vm_compute. reflexivity. Qed.

(** ** The remaining operations *)

(** What the calls of an operation are, once the run is known to be a single
    answered call. *)
Ltac single_call Hc :=
  rewrite calls_answered in Hc;
  apply list_elem_of_singleton in Hc; subst.

(** Case analysis on the operation for a hypothesis [Hc] that a call is
    among the calls of its run. *)
Ltac calls_of_operation op Hc :=
  destruct op; cbn [perform] in Hc;
  [ rewrite exec_get_products in Hc; single_call Hc
  | rewrite exec_get_price_estimate in Hc; single_call Hc
  | rewrite exec_get_time_estimate in Hc; single_call Hc
  | rewrite exec_get_promotions in Hc; single_call Hc
  | rewrite exec_get_authorize_url in Hc;
    match type of Hc with
    | context [str_join ?sep ?xs] =>
        destruct (str_join sep xs) as [? | ?];
        [ cbn [calls] in Hc; inversion Hc | single_call Hc ]
    end
  | rewrite exec_get_access_token in Hc; single_call Hc
  | rewrite exec_refresh_token in Hc; single_call Hc
  | rewrite exec_revoke_token in Hc; single_call Hc ].

(** X1: [get_price_estimate] issues exactly one call, a GET to
    "estimates/price" whose dictionary has exactly the four coordinate keys,
    each bound to its argument, without the authorisation keyword. *)
Theorem get_price_estimate_single_get {world : Type} (h : @handler world)
  (self : Uber) (w : world)
  (start_latitude start_longitude end_latitude end_longitude : pyobj) :
  exists query_parameters : gmap string pyobj,
    exec h (get_price_estimate start_latitude start_longitude
              end_latitude end_longitude) self w
    = answered h (GetJson "estimates/price" "GET" query_parameters
                    PyNone PyNone None) self w
    /\ dom query_parameters =
       {[ "start_latitude"; "start_longitude"; "end_latitude"; "end_longitude" ]}
    /\ query_parameters !! "start_latitude" = Some start_latitude
    /\ query_parameters !! "start_longitude" = Some start_longitude
    /\ query_parameters !! "end_latitude" = Some end_latitude
    /\ query_parameters !! "end_longitude" = Some end_longitude.
Proof.
  eexists. split; [apply exec_get_price_estimate |].
  repeat split.
Qed.

(** X2: [get_promotions] issues exactly one call, a GET to "promotions"
    without the authorisation keyword; its dictionary is the one that
    [get_price_estimate] sends for the same four arguments. *)
Theorem get_promotions_single_get {world : Type} (h : @handler world)
  (self : Uber) (w : world) (a b c d : pyobj) :
  exists query_parameters : gmap string pyobj,
    exec h (get_promotions a b c d) self w
    = answered h (GetJson "promotions" "GET" query_parameters PyNone PyNone None)
        self w
    /\ parameters_of <$> calls (exec h (get_price_estimate a b c d) self w)
       = [query_parameters]
    /\ dom query_parameters =
       {[ "start_latitude"; "start_longitude"; "end_latitude"; "end_longitude" ]}.
Proof.
  eexists. split; [apply exec_get_promotions |].
  rewrite exec_get_price_estimate, calls_answered.
  repeat split.
Qed.

(** X3: [revoke_token] issues exactly one call, a POST to "revoke" with the
    authorisation keyword set; its dictionary has exactly the keys client_id,
    client_secret and token, so neither redirect_uri nor grant_type is
    sent. *)
Theorem revoke_token_single_post {world : Type} (h : @handler world)
  (self : Uber) (w : world) (token : pyobj) :
  exists query_parameters : gmap string pyobj,
    exec h (revoke_token token) self w
    = answered h (GetJson "revoke" "POST" query_parameters PyNone PyNone
                    (Some true)) self w
    /\ dom query_parameters = {[ "client_id"; "client_secret"; "token" ]}
    /\ query_parameters !! "client_id" = Some (client_id self)
    /\ query_parameters !! "client_secret" = Some (secret self)
    /\ query_parameters !! "token" = Some token
    /\ query_parameters !! "redirect_uri" = None
    /\ query_parameters !! "grant_type" = None.
Proof.
  eexists. split; [apply exec_revoke_token |].
  repeat split.
Qed.

(** ** Properties across the operations *)

(** X4: the authorisation keyword is passed, as True, by exactly the
    operations of the OAuth flow; the four data operations leave it out. *)
Theorem authorisation_only_for_oauth {world : Type} (h : @handler world)
  (op : operation) (self : Uber) (w : world) (c : ApiCall) :
  c ∈ calls (exec h (perform op) self w) ->
  authorisation_of c = if is_oauth op then Some true else None.
Proof.
  intros Hc. calls_of_operation op Hc; reflexivity.
Qed.

Lemma authorisation_only_for_oauth_witness :
  authorisation_of
    (GetJson "products" "GET"
       {[ "latitude" := PyInt 37; "longitude" := PyInt (-122) ]}
       PyNone PyNone None) = None.
Proof.
  apply (authorisation_only_for_oauth counting_handler
           (OpGetProducts (PyInt 37) (PyInt (-122))) sample_client 0).
  vm_compute. apply list_elem_of_here.
Defined.

(** X5: the three token operations use POST, the four data operations use
    GET, and the call of [get_authorize_url] names no HTTP method. *)
Theorem http_method_of_operation {world : Type} (h : @handler world)
  (op : operation) (self : Uber) (w : world) (c : ApiCall) :
  c ∈ calls (exec h (perform op) self w) ->
  method_of c =
  if is_token_op op then Some "POST"
  else if is_authorize op then None
  else Some "GET".
Proof.
  intros Hc. calls_of_operation op Hc; reflexivity.
Qed.

Lemma http_method_of_operation_witness :
  method_of
    (GetJson "revoke" "POST"
       {[ "client_id" := PyStr "my-client";
          "client_secret" := PyStr "my-secret";
          "token" := PyStr "t" ]}
       PyNone PyNone (Some true)) = Some "POST".
Proof.
  apply (http_method_of_operation counting_handler
           (OpRevokeToken (PyStr "t")) sample_client 0).
  vm_compute. apply list_elem_of_here.
Defined.

(** X6: the client secret is sent, under the key client_secret, by exactly
    the three token operations; no call of a data operation or of
    [get_authorize_url] carries that key. *)
Theorem client_secret_only_for_token_operations {world : Type}
  (h : @handler world) (op : operation) (self : Uber) (w : world) (c : ApiCall) :
  c ∈ calls (exec h (perform op) self w) ->
  parameters_of c !! "client_secret" =
  if is_token_op op then Some (secret self) else None.
Proof.
  intros Hc. calls_of_operation op Hc; try reflexivity.
  cbn [parameters_of is_token_op]. unfold time_estimate_parameters.
  destruct (select_time_branch customer_uuid product_id); reflexivity.
Qed.

Lemma client_secret_only_for_token_operations_witness :
  parameters_of
    (BuildRequest "authorize"
       {[ "client_id" := PyStr "my-client";
          "response_type" := PyStr "code";
          "scopes" := PyStr "profile" ]} (Some true)) !! "client_secret" = None.
Proof.
  apply (client_secret_only_for_token_operations counting_handler
           (OpGetAuthorizeUrl [PyStr "profile"] PyNone (PyStr "code"))
           sample_client 0).
  vm_compute. apply list_elem_of_here.
Defined.

(** ** More on the time estimate *)

(** X7: for every input of [get_time_estimate], the dictionary keeps the two
    coordinates as given; customer_uuid is present exactly when the argument
    is not None; product_id is present exactly when customer_uuid is None and
    product_id is not; so the two optional keys never occur together, an
    optional key is never bound to None, and no other key occurs. *)
Theorem time_estimate_parameters_spec
  (start_latitude start_longitude customer_uuid product_id : pyobj) :
  let query_parameters :=
    time_estimate_parameters start_latitude start_longitude
      customer_uuid product_id in
  query_parameters !! "start_latitude" = Some start_latitude
  /\ query_parameters !! "start_longitude" = Some start_longitude
  /\ query_parameters !! "customer_uuid" =
     (if is_not_None customer_uuid then Some customer_uuid else None)
  /\ query_parameters !! "product_id" =
     (if is_not_None customer_uuid then None
      else if is_not_None product_id then Some product_id else None)
  /\ ~ (is_Some (query_parameters !! "customer_uuid")
        /\ is_Some (query_parameters !! "product_id"))
  /\ query_parameters !! "customer_uuid" <> Some PyNone
  /\ query_parameters !! "product_id" <> Some PyNone
  /\ dom query_parameters ⊆
     {[ "start_latitude"; "start_longitude"; "customer_uuid"; "product_id" ]}
  /\ dom (time_estimate_parameters start_latitude start_longitude PyNone PyNone)
     = {[ "start_latitude"; "start_longitude" ]}.
Proof.
  intros query_parameters. subst query_parameters.
  unfold time_estimate_parameters, select_time_branch.
  destruct (is_not_None customer_uuid) eqn:Hc;
    [| destruct (is_not_None product_id) eqn:Hp ];
    cbn [andb run_time_branch];
    repeat split;
    lazymatch goal with
    | |- ~ (_ /\ _) =>
        intros [[x Hx] [y Hy]]; vm_compute in Hx, Hy; discriminate
    | |- _ <> _ =>
        let H := fresh "H" in
        intros H; vm_compute in H;
        first [ discriminate H
              | injection H; intros ?; subst;
                first [discriminate Hc | discriminate Hp] ]
    | |- _ ⊆ _ =>
        rewrite ?dom_insert_L, ?dom_singleton_L; intros k;
        rewrite !elem_of_union, !elem_of_singleton; tauto
    end.
Qed.

(** X8: with a customer and no product, the single GET to "estimates/time"
    carries exactly the two coordinates and customer_uuid. *)
Theorem get_time_estimate_customer_only {world : Type} (h : @handler world)
  (self : Uber) (w : world) (start_latitude start_longitude customer_uuid : pyobj) :
  customer_uuid <> PyNone ->
  exists query_parameters : gmap string pyobj,
    exec h (get_time_estimate start_latitude start_longitude
              customer_uuid default_product_id) self w
    = answered h (GetJson "estimates/time" "GET" query_parameters
                    PyNone PyNone None) self w
    /\ dom query_parameters =
       {[ "start_latitude"; "start_longitude"; "customer_uuid" ]}
    /\ query_parameters !! "start_latitude" = Some start_latitude
    /\ query_parameters !! "start_longitude" = Some start_longitude
    /\ query_parameters !! "customer_uuid" = Some customer_uuid
    /\ query_parameters !! "product_id" = None.
Proof.
  intros Hc. eexists. split; [apply exec_get_time_estimate |].
  unfold default_product_id.
  rewrite (time_estimate_customer_only _ _ _ Hc).
  repeat split.
Qed.

Lemma get_time_estimate_customer_only_witness :
  PyStr "customer-1" <> PyNone
  /\ exists query_parameters : gmap string pyobj,
       exec counting_handler
         (get_time_estimate (PyInt 37) (PyInt (-122)) (PyStr "customer-1")
            default_product_id) sample_client 0
       = answered counting_handler
           (GetJson "estimates/time" "GET" query_parameters PyNone PyNone None)
           sample_client 0
       /\ dom query_parameters =
          {[ "start_latitude"; "start_longitude"; "customer_uuid" ]}
       /\ query_parameters !! "start_latitude" = Some (PyInt 37)
       /\ query_parameters !! "start_longitude" = Some (PyInt (-122))
       /\ query_parameters !! "customer_uuid" = Some (PyStr "customer-1")
       /\ query_parameters !! "product_id" = None.
Proof.
  assert (Hc : PyStr "customer-1" <> PyNone) by discriminate.
  split; [exact Hc |].
  exact (get_time_estimate_customer_only counting_handler sample_client 0
           (PyInt 37) (PyInt (-122)) (PyStr "customer-1") Hc).
Defined.

(** X9: with a product and no customer, the single GET to "estimates/time"
    carries exactly the two coordinates and product_id. *)
Theorem get_time_estimate_product_only_request {world : Type}
  (h : @handler world) (self : Uber) (w : world)
  (start_latitude start_longitude product_id : pyobj) :
  product_id <> PyNone ->
  exists query_parameters : gmap string pyobj,
    exec h (get_time_estimate start_latitude start_longitude
              default_customer_uuid product_id) self w
    = answered h (GetJson "estimates/time" "GET" query_parameters
                    PyNone PyNone None) self w
    /\ dom query_parameters =
       {[ "start_latitude"; "start_longitude"; "product_id" ]}
    /\ query_parameters !! "start_latitude" = Some start_latitude
    /\ query_parameters !! "start_longitude" = Some start_longitude
    /\ query_parameters !! "product_id" = Some product_id
    /\ query_parameters !! "customer_uuid" = None.
Proof.
  intros Hp. eexists. split; [apply exec_get_time_estimate |].
  unfold default_customer_uuid.
  rewrite (time_estimate_product_only _ _ _ Hp).
  repeat split.
Qed.

Lemma get_time_estimate_product_only_request_witness :
  PyStr "product-1" <> PyNone
  /\ exists query_parameters : gmap string pyobj,
       exec counting_handler
         (get_time_estimate (PyInt 37) (PyInt (-122)) default_customer_uuid
            (PyStr "product-1")) sample_client 0
       = answered counting_handler
           (GetJson "estimates/time" "GET" query_parameters PyNone PyNone None)
           sample_client 0
       /\ dom query_parameters =
          {[ "start_latitude"; "start_longitude"; "product_id" ]}
       /\ query_parameters !! "start_latitude" = Some (PyInt 37)
       /\ query_parameters !! "start_longitude" = Some (PyInt (-122))
       /\ query_parameters !! "product_id" = Some (PyStr "product-1")
       /\ query_parameters !! "customer_uuid" = None.
Proof.
  assert (Hp : PyStr "product-1" <> PyNone) by discriminate.
  split; [exact Hp |].
  exact (get_time_estimate_product_only_request counting_handler sample_client 0
           (PyInt 37) (PyInt (-122)) (PyStr "product-1") Hp).
Defined.

(** ** More on the authorisation URL *)

Lemma as_strings_fmap (ss : list string) : as_strings (PyStr <$> ss) = Some ss.
Proof.
  induction ss as [| s ss IH]; [reflexivity |].
  cbn [fmap list_fmap as_strings]. fold (PyStr <$> ss). rewrite IH. reflexivity.
Qed.

Lemma as_strings_Some (xs : list pyobj) (ss : list string) :
  as_strings xs = Some ss -> xs = PyStr <$> ss.
Proof.
  revert ss. induction xs as [| x xs IH]; intros ss H.
  - injection H as <-. reflexivity.
  - destruct x; try discriminate H. cbn [as_strings] in H.
    destruct (as_strings xs) as [ss' |]; [| discriminate H].
    injection H as <-. rewrite (IH ss' eq_refl). reflexivity.
Qed.

Lemma as_strings_None (xs : list pyobj) :
  as_strings xs = None <-> exists x, x ∈ xs /\ forall s, x <> PyStr s.
Proof.
  split.
  - induction xs as [| x xs IH]; [discriminate |].
    intros H.
    assert (Hrest : as_strings xs = None ->
                    exists y, y ∈ x :: xs /\ forall s, y <> PyStr s).
    { intros Hn. destruct (IH Hn) as (y & Hy & Hs).
      exists y. split; [by apply list_elem_of_further | exact Hs]. }
    destruct x as [| b | z | bits | s | ys | kvs];
      try (eexists; split; [apply list_elem_of_here | intros ?; discriminate]).
    cbn [as_strings] in H.
    destruct (as_strings xs); [discriminate H | by apply Hrest].
  - intros (x & Hx & Hs).
    destruct (as_strings xs) as [ss |] eqn:E; [| reflexivity].
    apply as_strings_Some in E. subst xs.
    apply list_elem_of_fmap in Hx. destruct Hx as (s & -> & _).
    by destruct (Hs s).
Qed.

(** X10: for scopes given as a list, [get_authorize_url] raises TypeError
    exactly when some item of the list is not a string; it then issues no
    call and leaves the instance and the world as they were. *)
Theorem get_authorize_url_type_error {world : Type} (h : @handler world)
  (self : Uber) (w : world) (scopes : list pyobj) (state response_type : pyobj) :
  (exists x, x ∈ scopes /\ forall s, x <> PyStr s)
  <-> exec h (get_authorize_url scopes state response_type) self w
      = mkRun (inl TypeError) self w [].
Proof.
  rewrite exec_get_authorize_url. unfold str_join.
  rewrite <- as_strings_None.
  destruct (as_strings scopes) as [ss |]; split; intros H;
    try reflexivity; try discriminate H.
  apply (f_equal calls) in H. rewrite calls_answered in H. discriminate H.
Qed.

(** X11: when every item of scopes is a string, [get_authorize_url] issues
    exactly one call, [build_request] on the path "authorize" with the
    authorisation keyword set; the dictionary binds client_id to the
    attribute of the instance, response_type to the argument as it is, and
    scopes to the items joined by commas in their order. *)
Theorem get_authorize_url_string_scopes {world : Type} (h : @handler world)
  (self : Uber) (w : world) (ss : list string) (state response_type : pyobj) :
  exists query_parameters : gmap string pyobj,
    exec h (get_authorize_url (PyStr <$> ss) state response_type) self w
    = answered h (BuildRequest "authorize" query_parameters (Some true)) self w
    /\ dom query_parameters = {[ "client_id"; "response_type"; "scopes" ]}
    /\ query_parameters !! "client_id" = Some (client_id self)
    /\ query_parameters !! "response_type" = Some response_type
    /\ query_parameters !! "scopes" = Some (PyStr (join_strings "," ss)).
Proof.
  eexists. split.
  - rewrite exec_get_authorize_url. unfold str_join.
    rewrite as_strings_fmap. reflexivity.
  - repeat split.
Qed.

(** ** What the operations read *)

Lemma calls_perform {world : Type} (h : @handler world) op self w :
  calls (exec h (perform op) self w) =
  match first_call (perform op) self with
  | Some c => [c]
  | None => []
  end.
Proof.
  rewrite perform_by_first_call.
  destruct (first_call (perform op) self); [apply calls_answered | reflexivity].
Qed.

(** The first call of an operation reads three attributes at most. *)
Lemma first_call_reads op self self' :
  client_id self' = client_id self ->
  secret self' = secret self ->
  redirect_uri self' = redirect_uri self ->
  first_call (perform op) self' = first_call (perform op) self.
Proof.
  destruct self as [c1 t1 s1 r1 o1], self' as [c2 t2 s2 r2 o2].
  cbn [client_id secret redirect_uri]. intros -> -> ->.
  destruct op; cbn [perform]; try reflexivity.
  unfold get_authorize_url, str_join.
  cbn [first_call bind mbind Prog_bind getattr].
  destruct (as_strings scopes) as [ss |]; reflexivity.
Qed.

Lemma config_after_init {world : Type} (h : @handler world) self w a b c d :
  preserves_config h ->
  config_of (self_after (exec h (Uber_init a b c d) self w)) = (a, b, c, d).
Proof.
  intros Hh. rewrite exec_Uber_init. cbv zeta.
  pose proof (Hh (ApiInit a b c d) (mkUber a b c d (api_attrs self)) w) as Hc.
  destruct (h (ApiInit a b c d) (mkUber a b c d (api_attrs self)) w)
    as [[[e | v] self'] w']; exact Hc.
Qed.

(** X13: no operation reads the server token or an attribute kept by the
    base class: two instances that agree on client_id, secret and
    redirect_uri issue the same calls, whatever the base class and the world
    are. *)
Theorem server_token_never_read {world world' : Type}
  (h : @handler world) (h' : @handler world') (op : operation)
  (self self' : Uber) (w : world) (w' : world') :
  client_id self' = client_id self ->
  secret self' = secret self ->
  redirect_uri self' = redirect_uri self ->
  calls (exec h' (perform op) self' w') = calls (exec h (perform op) self w).
Proof.
  intros Hc Hs Hr. rewrite !calls_perform.
  rewrite (first_call_reads op self self' Hc Hs Hr). reflexivity.
Qed.

Lemma server_token_never_read_witness :
  calls (exec (stateless (world := unit) (fun _ => inl (ApiError PyNone)))
           (perform (OpRevokeToken (PyStr "t")))
           (mkUber (PyStr "my-client") (PyStr "another-token") (PyStr "my-secret")
              (PyStr "https://example.org/callback") {[ "cache" := PyInt 1 ]}) tt)
  = calls (exec counting_handler (perform (OpRevokeToken (PyStr "t")))
             sample_client 0).
Proof.
  apply (server_token_never_read counting_handler
           (stateless (world := unit) (fun _ => inl (ApiError PyNone)))
           (OpRevokeToken (PyStr "t")) sample_client); reflexivity.
Defined.

(** X14: the four data operations read nothing from the instance: on any
    two instances they issue the same call. *)
Theorem data_operations_ignore_instance {world world' : Type}
  (h : @handler world) (h' : @handler world') (op : operation)
  (self self' : Uber) (w : world) (w' : world') :
  is_oauth op = false ->
  calls (exec h' (perform op) self' w') = calls (exec h (perform op) self w).
Proof.
  intros Hop. rewrite !calls_perform.
  destruct op; try discriminate Hop; reflexivity.
Qed.

Lemma data_operations_ignore_instance_witness :
  calls (exec counting_handler
           (perform (OpGetProducts (PyInt 37) (PyInt (-122))))
           (mkUber PyNone PyNone PyNone PyNone ∅) 5)
  = calls (exec counting_handler
             (perform (OpGetProducts (PyInt 37) (PyInt (-122))))
             sample_client 0).
Proof.
  apply (data_operations_ignore_instance counting_handler counting_handler
           (OpGetProducts (PyInt 37) (PyInt (-122)))).
  reflexivity.
Defined.

(** X15: the body of [get_authorize_url] reads client_id and no other
    attribute: on two instances with the same client_id the arguments of the
    call to [build_request] (path, dictionary, authorisation keyword) are
    the same.  The instance itself is still passed to [build_request]. *)
Theorem get_authorize_url_reads_client_id_only {world world' : Type}
  (h : @handler world) (h' : @handler world') (self self' : Uber)
  (w : world) (w' : world') (scopes : list pyobj) (state response_type : pyobj) :
  client_id self' = client_id self ->
  calls (exec h' (get_authorize_url scopes state response_type) self' w')
  = calls (exec h (get_authorize_url scopes state response_type) self w).
Proof.
  intros Hc. rewrite !exec_get_authorize_url, Hc.
  destruct (str_join "," scopes) as [e | joined]; [reflexivity |].
  rewrite !calls_answered. reflexivity.
Qed.

Lemma get_authorize_url_reads_client_id_only_witness :
  calls (exec counting_handler
           (get_authorize_url [PyStr "profile"] PyNone (PyStr "code"))
           (mkUber (PyStr "my-client") PyNone (PyStr "other-secret") PyNone ∅) 3)
  = calls (exec counting_handler
             (get_authorize_url [PyStr "profile"] PyNone (PyStr "code"))
             sample_client 0).
Proof.
  apply (get_authorize_url_reads_client_id_only counting_handler counting_handler
           sample_client). reflexivity.
Defined.

(** ** Operations one after another *)

(** X16: an operation run after another one, on the instance and in the
    world that the first one left, issues the call it would have issued
    first, and the configuration is still the initial one afterwards,
    provided the base class leaves the four attributes alone. *)
Theorem operations_in_sequence {world : Type} (h : @handler world)
  (op1 op2 : operation) (self : Uber) (w : world) :
  preserves_config h ->
  let r1 := exec h (perform op1) self w in
  let r2 := exec h (perform op2) (self_after r1) (world_after r1) in
  calls r2 = calls (exec h (perform op2) self w)
  /\ config_of (self_after r2) = config_of self.
Proof.
  intros Hh r1 r2. subst r2.
  assert (H1 : config_of (self_after r1) = config_of self)
    by (apply read_only_config; [apply perform_read_only | exact Hh]).
  split.
  - rewrite !calls_perform.
    rewrite (first_call_config op2 self (self_after r1) H1). reflexivity.
  - rewrite read_only_config; [exact H1 | apply perform_read_only | exact Hh].
Qed.

Lemma operations_in_sequence_witness :
  preserves_config counting_handler
  /\ calls (exec counting_handler (perform (OpRefreshToken (PyStr "r")))
             (self_after (exec counting_handler
                            (perform (OpGetAccessToken (PyStr "abc123")))
                            sample_client 0))
             (world_after (exec counting_handler
                             (perform (OpGetAccessToken (PyStr "abc123")))
                             sample_client 0)))
     = calls (exec counting_handler (perform (OpRefreshToken (PyStr "r")))
                sample_client 0).
Proof.
  assert (H : preserves_config counting_handler)
    by (intros c self w; reflexivity).
  split; [exact H |].
  exact (proj1 (operations_in_sequence counting_handler
                  (OpGetAccessToken (PyStr "abc123")) (OpRefreshToken (PyStr "r"))
                  sample_client 0 H)).
Defined.

(** X17: the arguments of the constructor are what the token exchange
    sends: after [__init__] with client_id, server_token, secret and
    redirect_uri, [get_access_token] sends client_id as client_id, secret as
    client_secret and redirect_uri as redirect_uri, whatever the instance
    held before, provided the base class leaves the four attributes alone. *)
Theorem constructor_feeds_token_exchange {world : Type} (h : @handler world)
  (self : Uber) (w : world)
  (a_client_id a_server_token a_secret a_redirect_uri code : pyobj) :
  preserves_config h ->
  let r0 :=
    exec h (Uber_init a_client_id a_server_token a_secret a_redirect_uri) self w in
  calls r0 = [ApiInit a_client_id a_server_token a_secret a_redirect_uri]
  /\ calls (exec h (get_access_token code) (self_after r0) (world_after r0))
     = [GetJson "token" "POST"
          {[ "client_id" := a_client_id;
             "client_secret" := a_secret;
             "grant_type" := PyStr "authorization_code";
             "redirect_uri" := a_redirect_uri;
             "code" := code ]}
          PyNone PyNone (Some true)].
Proof.
  intros Hh r0.
  pose proof (config_after_init h self w a_client_id a_server_token a_secret
                a_redirect_uri Hh) as Hcfg.
  fold r0 in Hcfg. split.
  - subst r0. rewrite exec_Uber_init. cbv zeta.
    destruct (h _ _ w) as [[[e | v] self'] w']; reflexivity.
  - rewrite exec_get_access_token, calls_answered.
    unfold config_of in Hcfg. injection Hcfg as -> _ -> ->. reflexivity.
Qed.

Lemma constructor_feeds_token_exchange_witness :
  preserves_config counting_handler
  /\ calls (exec counting_handler (get_access_token (PyStr "abc123"))
             (self_after (exec counting_handler
                            (Uber_init (PyStr "id") (PyStr "tok") (PyStr "sec")
                               (PyStr "uri")) sample_client 0))
             (world_after (exec counting_handler
                             (Uber_init (PyStr "id") (PyStr "tok") (PyStr "sec")
                                (PyStr "uri")) sample_client 0)))
     = [GetJson "token" "POST"
          {[ "client_id" := PyStr "id";
             "client_secret" := PyStr "sec";
             "grant_type" := PyStr "authorization_code";
             "redirect_uri" := PyStr "uri";
             "code" := PyStr "abc123" ]}
          PyNone PyNone (Some true)].
Proof.
  assert (H : preserves_config counting_handler)
    by (intros c self w; reflexivity).
  split; [exact H |].
  exact (proj2 (constructor_feeds_token_exchange counting_handler sample_client 0
                  (PyStr "id") (PyStr "tok") (PyStr "sec") (PyStr "uri")
                  (PyStr "abc123") H)).
Defined.

(** X18: the requests of [refresh_token] and [get_access_token] differ in
    one key only: both are a POST to "token" with the authorisation keyword
    set, and once code is removed from the one dictionary and refresh_token
    from the other, the two dictionaries are equal. *)
Theorem refresh_differs_from_exchange_in_one_key {world : Type}
  (h : @handler world) (self : Uber) (w : world) (code token : pyobj) :
  exists exchange_parameters refresh_parameters : gmap string pyobj,
    exec h (get_access_token code) self w
    = answered h (GetJson "token" "POST" exchange_parameters PyNone PyNone
                    (Some true)) self w
    /\ exec h (refresh_token token) self w
       = answered h (GetJson "token" "POST" refresh_parameters PyNone PyNone
                       (Some true)) self w
    /\ delete "code" exchange_parameters
       = delete "refresh_token" refresh_parameters
    /\ exchange_parameters !! "refresh_token" = None
    /\ refresh_parameters !! "code" = None.
Proof.
  do 2 eexists.
  split; [apply exec_get_access_token |].
  split; [apply exec_refresh_token |].
  repeat split.
Qed.
